(** * Event-driven SCP attachment: the architecture diagram script

    A model of
    [cloudComputing/AWS/solutions/event-driven_scp_attachment/diagram/
     event-driven_scp_attachment_architecture_diagram.py]
    and of the part of the [diagrams] package the script calls.

    The script is a straight sequence of calls into the package; each call
    reads and updates the interpreter's state.  The state is passed
    explicitly ([World]), a call is a function from a state to an outcome
    ([M]), and the [with] statement is a combinator ([with_]).  The package
    itself is a dependency of the repository and not part of it: its classes
    are modelled after their public behaviour (contexts, operators, file
    naming, the files written and removed).  Diagrams and clusters are
    objects that change after they are made and that nodes and clusters
    keep references to, so they live in a store and are named by
    reference.  The layout engine behind [render] and the dot text it
    reads are not modelled: an image on disk, and the dot source saved
    beside it, are recorded as the diagram they were made from. *)

From Stdlib Require Import Ascii.
From stdpp Require Import base option list strings gmap.

Open Scope string_scope.

(** ** Strings *)

(** The line break the script writes as a backslash followed by n. *)
Definition nl : string := String (ascii_of_nat 10) EmptyString.

(** Python's [str.isspace] on the ASCII range: tab to carriage return, the
    four separators 28-31 and the space.  A string is its bytes, and on a
    string of ASCII characters [isspace], [split], [lower] and [upper] below
    are Python's; outside ASCII Python knows more white space and more
    letters than they do, and what is proved of them for all strings
    assumes the string ASCII. *)
Definition isspace (c : ascii) : bool :=
  let n := nat_of_ascii c in
  ((9 <=? n)%nat && (n <=? 13)%nat) || ((28 <=? n)%nat && (n <=? 32)%nat).

(** [str.split()] with no argument: the maximal runs of characters that are
    not white space, in order.  [word] is the run being read. *)
Fixpoint split_from (word : string) (s : string) : list string :=
  match s with
  | EmptyString => match word with EmptyString => [] | _ => [word] end
  | String c s' =>
      if isspace c
      then match word with
           | EmptyString => split_from EmptyString s'
           | _ => word :: split_from EmptyString s'
           end
      else split_from (word +:+ String c EmptyString) s'
  end.

Definition split (s : string) : list string := split_from EmptyString s.

(** [sep.join(words)]. *)
Fixpoint join (sep : string) (words : list string) : string :=
  match words with
  | [] => EmptyString
  | [w] => w
  | w :: ws => w +:+ sep +:+ join sep ws
  end.

(** [str.lower] on the ASCII range. *)
Definition lower_char (c : ascii) : ascii :=
  let n := nat_of_ascii c in
  if (65 <=? n)%nat && (n <=? 90)%nat then ascii_of_nat (n + 32) else c.

Fixpoint lower (s : string) : string :=
  match s with
  | EmptyString => EmptyString
  | String c s' => String (lower_char c) (lower s')
  end.

Definition upper_char (c : ascii) : ascii :=
  let n := nat_of_ascii c in
  if (97 <=? n)%nat && (n <=? 122)%nat then ascii_of_nat (n - 32) else c.

Fixpoint upper (s : string) : string :=
  match s with
  | EmptyString => EmptyString
  | String c s' => String (upper_char c) (upper s')
  end.

(** A label on one line: every line break replaced by a space.  Used only
    to read labels, never by the script. *)
Fixpoint one_line (s : string) : string :=
  match s with
  | EmptyString => EmptyString
  | String c s' =>
      String (if Ascii.eqb c (ascii_of_nat 10) then " "%char else c) (one_line s')
  end.

(** ** Python dictionaries of keyword attributes

    Insertion ordered, one entry per key. *)
Definition Attrs : Type := list (string * string).

Fixpoint dict_set (k v : string) (d : Attrs) : Attrs :=
  match d with
  | [] => [(k, v)]
  | (k', v') :: d' =>
      if String.eqb k k' then (k, v) :: d' else (k', v') :: dict_set k v d'
  end.

Fixpoint dict_get (k : string) (d : Attrs) : option string :=
  match d with
  | [] => None
  | (k', v') :: d' => if String.eqb k k' then Some v' else dict_get k d'
  end.

Definition dict_keys (d : Attrs) : list string := map fst d.

(** [d.update(other)]. *)
Definition dict_update (d other : Attrs) : Attrs :=
  fold_left (fun acc kv => dict_set (fst kv) (snd kv) acc) other d.

(** ** The graph under construction *)

(** The node classes the script imports, lines 2-5. *)
Inductive NodeClass : Type :=
| S3
| Organizations
| Cloudtrail
| OrganizationsAccount
| Eventbridge
| Lambda.

(** The module of [diagrams.aws] each class is imported from: its icon
    category. *)
Definition category (c : NodeClass) : string :=
  match c with
  | S3 => "storage"
  | Organizations | Cloudtrail | OrganizationsAccount => "management"
  | Eventbridge => "integration"
  | Lambda => "compute"
  end.

(** Node identifiers.  A node is a Python object, and two calls of a node
    class make two objects: the model numbers the objects in the order they
    are made.  (The package also gives each node a name for the dot text,
    drawn from [uuid.uuid4]; the dot text is not modelled.) *)
Definition NodeId : Type := nat.

(** What a graph body holds: node statements, edge statements and the
    bodies of the clusters closed inside it. *)
#[warnings="-register-all"] Inductive Item : Type :=
| INode (id : NodeId) (label : string) (cls : NodeClass)
| IEdge (tail head : NodeId) (attrs : Attrs)
| ISubgraph (label : string) (body : list Item).

(** References to the objects whose contents change after they are made:
    diagrams and clusters.  An object is named by the number it got when it
    was made; what it holds is looked up in the state. *)
Definition Ref : Type := nat.

(** A [Node] object as the script's variables hold it; [node_diagram] is
    its [_diagram], the diagram that was in scope when it was made. *)
Record NodeObj : Type := mkNode {
  nodeid : NodeId;
  node_label : string;
  node_class : NodeClass;
  node_diagram : Ref
}.

(** An [Edge] object: the node it hangs on so far, its two arrow flags and
    its keyword attributes. *)
Record EdgeObj : Type := mkEdge {
  edge_node : option NodeObj;
  forward : bool;
  reverse : bool;
  edge_attrs : Attrs
}.

(** What a [Diagram] object holds. *)
Record DiagramObj : Type := mkDiagram {
  name : string;
  filename : string;
  rankdir : string;
  outformat : string;
  show : bool;
  body : list Item
}.

(** What a [Cluster] object holds: its label, its [_diagram] and [_parent],
    both fixed when it is made, and the body collected so far. *)
Record ClusterObj : Type := mkCluster {
  cluster_label : string;
  cluster_diagram : Ref;
  cluster_parent : option Ref;
  cluster_body : list Item
}.

(** ** The state a run works on *)

(** A file on disk: an image, recorded as the diagram it was rendered from;
    the dot source of a diagram, recorded as that diagram; or anything
    else. *)
Inductive File : Type :=
| Rendered (d : DiagramObj)
| DotSource (d : DiagramObj)
| Data (bytes : string).

(** One entry of the history of calls that touch a graph: a diagram is
    constructed, a cluster is opened or closed, a statement is given to
    the cluster of that label or to a diagram, a diagram is rendered to a
    path. *)
Inductive Call : Type :=
| Construct (name : string)
| OpenCluster (label : string)
| ToCluster (label : string) (i : Item)
| ToDiagram (i : Item)
| CloseCluster (label : string)
| Render (path : string).

Record World : Type := mkWorld {
  argv : list string;
  (** [sys.argv] *)
  environ : gmap string string;
  (** [os.environ] *)
  files : gmap string File;
  (** the files on disk, by path *)
  viewed : list string;
  (** the files handed to a viewer *)
  allocated : nat;
  (** how many objects the interpreter has made so far *)
  diagrams : gmap nat DiagramObj;
  (** the diagram objects, by reference *)
  clusters : gmap nat ClusterObj;
  (** the cluster objects, by reference *)
  the_diagram : option Ref;
  (** the package's context variable for the diagram in scope *)
  the_cluster : option Ref;
  (** the package's context variable for the cluster in scope *)
  history : list Call
}.

(** The exceptions raised: by the package outside a diagram's scope and on
    a direction or output format it does not know (the rejected value is
    kept), and by [os.remove] on a path that holds no file. *)
Inductive Exn : Type :=
| EnvironmentError (msg : string)
| ValueError (rejected : string)
| FileNotFoundError (path : string).

Inductive Outcome (A : Type) : Type :=
| Ok (a : A) (w : World)
| Raise (e : Exn) (w : World).

Arguments Ok {A} a w.
Arguments Raise {A} e w.

Definition M (A : Type) : Type := World -> Outcome A.

Definition ret {A} (a : A) : M A := fun w => Ok a w.

Definition bind {A B} (m : M A) (k : A -> M B) : M B :=
  fun w => match m w with
           | Ok a w' => k a w'
           | Raise e w' => Raise e w'
           end.

Definition raise {A} (e : Exn) : M A := fun w => Raise e w.

Notation "x <- m ;; k" := (bind m (fun x => k))
  (at level 100, m at next level, right associativity).
Notation "m ;;; k" := (bind m (fun _ => k))
  (at level 100, right associativity).

(** [with mgr: block]: enter, run the block, and leave on the way out
    whether the block returned or raised. *)
Definition with_ {A} (enter : M unit) (leave : M unit) (block : M A) : M A :=
  fun w =>
    match enter w with
    | Raise e w1 => Raise e w1
    | Ok _ w1 =>
        match block w1 with
        | Ok a w2 =>
            match leave w2 with
            | Ok _ w3 => Ok a w3
            | Raise e w3 => Raise e w3
            end
        | Raise e w2 =>
            match leave w2 with
            | Ok _ w3 => Raise e w3
            | Raise e' w3 => Raise e' w3
            end
        end
    end.

Definition world_of {A} (o : Outcome A) : World :=
  match o with Ok _ w => w | Raise _ w => w end.

(** *** Field updates *)

Definition set_files (f : gmap string File) (w : World) : World :=
  mkWorld (argv w) (environ w) f (viewed w) (allocated w) (diagrams w)
          (clusters w) (the_diagram w) (the_cluster w) (history w).

Definition set_viewed (v : list string) (w : World) : World :=
  mkWorld (argv w) (environ w) (files w) v (allocated w) (diagrams w)
          (clusters w) (the_diagram w) (the_cluster w) (history w).

Definition set_allocated (n : nat) (w : World) : World :=
  mkWorld (argv w) (environ w) (files w) (viewed w) n (diagrams w)
          (clusters w) (the_diagram w) (the_cluster w) (history w).

Definition set_diagrams (h : gmap nat DiagramObj) (w : World) : World :=
  mkWorld (argv w) (environ w) (files w) (viewed w) (allocated w) h
          (clusters w) (the_diagram w) (the_cluster w) (history w).

Definition set_clusters (h : gmap nat ClusterObj) (w : World) : World :=
  mkWorld (argv w) (environ w) (files w) (viewed w) (allocated w) (diagrams w)
          h (the_diagram w) (the_cluster w) (history w).

Definition set_the_diagram (d : option Ref) (w : World) : World :=
  mkWorld (argv w) (environ w) (files w) (viewed w) (allocated w) (diagrams w)
          (clusters w) d (the_cluster w) (history w).

Definition set_the_cluster (c : option Ref) (w : World) : World :=
  mkWorld (argv w) (environ w) (files w) (viewed w) (allocated w) (diagrams w)
          (clusters w) (the_diagram w) c (history w).

Definition set_history (h : list Call) (w : World) : World :=
  mkWorld (argv w) (environ w) (files w) (viewed w) (allocated w) (diagrams w)
          (clusters w) (the_diagram w) (the_cluster w) h.

Definition record (c : Call) : M unit :=
  fun w => Ok tt (set_history (history w ++ [c]) w).

(** *** Objects and files *)

(** What a reference holds, and the store with one object replaced.  A
    reference the package hands out always holds an object; where a
    function of the package looks one up, the branch for a reference that
    holds nothing only makes the function total. *)
Definition deref {A} (r : Ref) (h : gmap nat A) : option A := h !! r.

Definition store {A} (r : Ref) (x : A) (h : gmap nat A) : gmap nat A :=
  <[r := x]> h.

(** The disk with a file written at a path (over what was there), and with
    the file at a path removed. *)
Definition written (path : string) (f : File) (fs : gmap string File)
    : gmap string File :=
  <[path := f]> fs.

Definition removed (path : string) (fs : gmap string File)
    : gmap string File :=
  delete path fs.

(** The number of the next object; every object made takes one. *)
Definition new_object : M Ref :=
  fun w => Ok (allocated w) (set_allocated (S (allocated w)) w).

(** [os.remove(path)]. *)
Definition os_remove (path : string) : M unit :=
  fun w =>
    match files w !! path with
    | None => Raise (FileNotFoundError path) w
    | Some _ => Ok tt (set_files (removed path (files w)) w)
    end.

(** ** The [diagrams] package *)

Definition getdiagram : M (option Ref) :=
  fun w => Ok (the_diagram w) w.

Definition setdiagram (d : option Ref) : M unit :=
  fun w => Ok tt (set_the_diagram d w).

Definition getcluster : M (option Ref) :=
  fun w => Ok (the_cluster w) w.

Definition setcluster (c : option Ref) : M unit :=
  fun w => Ok tt (set_the_cluster c w).

Definition not_set_up : Exn :=
  EnvironmentError "Global diagrams context not set up".

(** [Node._rand_id]: an identifier no earlier node has; the model takes the
    number of the node object. *)
Definition rand_id : M NodeId := new_object.

(** [from diagrams import ...] in a fresh interpreter: the package creates
    its two context variables, and neither holds anything yet. *)
Definition import_diagrams : M unit :=
  fun w => Ok tt (set_the_diagram None (set_the_cluster None w)).

(** *** Diagram *)

Definition directions : list string := ["TB"; "BT"; "LR"; "RL"].
Definition outformats : list string := ["png"; "jpg"; "svg"; "pdf"; "dot"].

Definition validate_direction (direction : string) : bool :=
  bool_decide (upper direction ∈ directions).

Definition validate_outformat (fmt : string) : bool :=
  bool_decide (lower fmt ∈ outformats).

(** The file name a diagram gets when none is given: the words of its name,
    joined by underscores, in lower case. *)
Definition default_filename (name : string) : string :=
  lower (join "_" (split name)).

(** [Diagram(name, filename, direction, outformat, show)]; the keyword
    defaults are the empty file name, ["LR"], ["png"] and [True].  A diagram
    with neither a name nor a file name is filed as [diagrams_image]. *)
Definition Diagram_init (name filename direction outformat : string)
    (show : bool) : M Ref :=
  let filename :=
    match filename, name with
    | EmptyString, EmptyString => "diagrams_image"
    | EmptyString, _ => default_filename name
    | _, _ => filename
    end in
  if negb (validate_direction direction) then raise (ValueError direction)
  else if negb (validate_outformat outformat) then raise (ValueError outformat)
  else
    self <- new_object ;;
    (fun w =>
       Ok tt (set_diagrams
                (store self
                   (mkDiagram name filename direction outformat show [])
                   (diagrams w)) w)) ;;;
    record (Construct name) ;;;
    ret self.

Definition Diagram_enter (self : Ref) : M unit :=
  setdiagram (Some self).

(** The image [render] writes: the file name, a dot, the format. *)
Definition image_path (d : DiagramObj) : string :=
  filename d +:+ "." +:+ outformat d.

(** What [render] does with the contents of a diagram: the dot source is
    saved under the file name, the layout engine writes the image beside
    it, and the image is handed to a viewer when the diagram was built with
    [show=True]. *)
Definition render (d : DiagramObj) : M unit :=
  fun w =>
    let path := image_path d in
    let w1 := set_files (written (filename d) (DotSource d) (files w)) w in
    let w2 := set_files (written path (Rendered d) (files w1)) w1 in
    let w3 := if show d then set_viewed (viewed w2 ++ [path]) w2 else w2 in
    record (Render path) w3.

(** [Diagram.render]. *)
Definition Diagram_render (self : Ref) : M unit :=
  fun w =>
    match deref self (diagrams w) with
    | Some d => render d w
    | None => Ok tt w
    end.

(** [Diagram.__exit__]: render, remove the dot source so that only the
    image is left, and clear the context variable. *)
Definition Diagram_exit (self : Ref) : M unit :=
  Diagram_render self ;;;
  (fun w =>
     match deref self (diagrams w) with
     | Some d => os_remove (filename d) w
     | None => Ok tt w
     end) ;;;
  setdiagram None.

(** [Diagram.node], [Diagram.connect] and [Diagram.subgraph] append one
    statement to the body of the diagram they are called on. *)
Definition Diagram_append (self : Ref) (i : Item) : M unit :=
  fun w =>
    match deref self (diagrams w) with
    | Some d =>
        record (ToDiagram i)
          (set_diagrams
             (store self
                (mkDiagram (name d) (filename d) (rankdir d) (outformat d)
                           (show d) (body d ++ [i]))
                (diagrams w)) w)
    | None => Ok tt w
    end.

(** *** Cluster *)

(** [Cluster(label)]: needs a diagram in scope; the diagram and the cluster
    in scope become its [_diagram] and its [_parent]. *)
Definition Cluster_init (label : string) : M Ref :=
  d <- getdiagram ;;
  match d with
  | None => raise not_set_up
  | Some d =>
      parent <- getcluster ;;
      self <- new_object ;;
      (fun w =>
         Ok tt (set_clusters
                  (store self (mkCluster label d parent []) (clusters w)) w)) ;;;
      ret self
  end.

(** [Cluster.__enter__]: the cluster becomes the one in scope. *)
Definition Cluster_enter (self : Ref) : M unit :=
  setcluster (Some self) ;;;
  (fun w =>
     match deref self (clusters w) with
     | Some c => record (OpenCluster (cluster_label c)) w
     | None => Ok tt w
     end).

(** [Cluster.node] and [Cluster.subgraph] append one statement to the body
    of the cluster they are called on. *)
Definition Cluster_append (self : Ref) (i : Item) : M unit :=
  fun w =>
    match deref self (clusters w) with
    | Some c =>
        record (ToCluster (cluster_label c) i)
          (set_clusters
             (store self
                (mkCluster (cluster_label c) (cluster_diagram c)
                           (cluster_parent c) (cluster_body c ++ [i]))
                (clusters w)) w)
    | None => Ok tt w
    end.

(** [Cluster.__exit__]: hand the body to the parent, or to the diagram when
    there is no parent, and put the parent in scope. *)
Definition Cluster_exit (self : Ref) : M unit :=
  fun w =>
    match deref self (clusters w) with
    | Some c =>
        let sub := ISubgraph (cluster_label c) (cluster_body c) in
        (match cluster_parent c with
         | Some p => Cluster_append p sub
         | None => Diagram_append (cluster_diagram c) sub
         end ;;;
         setcluster (cluster_parent c) ;;;
         record (CloseCluster (cluster_label c))) w
    | None => Ok tt w
    end.

(** *** Node *)

(** [cls(label)] for a node class [cls]: take an identifier, then declare
    the node in the cluster in scope, or in the diagram in scope when no
    cluster is. *)
Definition Node_init (cls : NodeClass) (label : string) : M NodeObj :=
  id <- rand_id ;;
  d <- getdiagram ;;
  match d with
  | None => raise not_set_up
  | Some d =>
      c <- getcluster ;;
      match c with
      | Some c => Cluster_append c (INode id label cls)
      | None => Diagram_append d (INode id label cls)
      end ;;;
      ret (mkNode id label cls d)
  end.

(** *** Edge *)

(** The attributes every edge starts with. *)
Definition default_edge_attrs : Attrs :=
  [("fontcolor", "#2D3436"); ("fontname", "Sans-Serif"); ("fontsize", "13")].

(** [Edge(node, forward, reverse, label, color, style, **attrs)]; every
    keyword defaults to nothing: no node, both flags off, empty strings. *)
Definition Edge_init (node : option NodeObj) (forward reverse : bool)
    (label color style : string) (attrs : Attrs) : EdgeObj :=
  let a : Attrs := default_edge_attrs in
  let a := match label with EmptyString => a | _ => dict_set "label" label a end in
  let a := match color with EmptyString => a | _ => dict_set "color" color a end in
  let a := match style with EmptyString => a | _ => dict_set "style" style a end in
  mkEdge node forward reverse (dict_update a attrs).

(** The [attrs] property: the keyword attributes and the arrow direction. *)
Definition Edge_attrs (self : EdgeObj) : Attrs :=
  let direction :=
    if forward self && reverse self then "both"
    else if forward self then "forward"
    else if reverse self then "back"
    else "none" in
  dict_set "dir" direction (edge_attrs self).

(** [Diagram.connect(node, node2, edge)]. *)
Definition Diagram_connect (self : Ref) (node node2 : NodeObj) (edge : EdgeObj)
    : M unit :=
  Diagram_append self (IEdge (nodeid node) (nodeid node2) (Edge_attrs edge)).

(** [Node.connect(node, edge)]: the edge goes to the diagram of the node on
    the left, never to a cluster. *)
Definition Node_connect (self node : NodeObj) (edge : EdgeObj) : M NodeObj :=
  Diagram_connect (node_diagram self) self node edge ;;; ret node.

(** [node - edge]: the edge hangs on the node. *)
Definition Node_sub_Edge (self : NodeObj) (other : EdgeObj) : EdgeObj :=
  mkEdge (Some self) (forward other) (reverse other) (edge_attrs other).

(** [node >> edge]: the same, with the forward arrow. *)
Definition Node_rshift_Edge (self : NodeObj) (other : EdgeObj) : EdgeObj :=
  mkEdge (Some self) true (reverse other) (edge_attrs other).

(** [Edge.connect] with a node on the right: connect the node the edge
    hangs on to it; an edge that hangs on nothing yet takes the node. *)
Definition Edge_connect (self : EdgeObj) (other : NodeObj)
    : M (NodeObj + EdgeObj) :=
  match edge_node self with
  | Some n => r <- Node_connect n other self ;; ret (inl r)
  | None =>
      ret (inr (mkEdge (Some other) (forward self) (reverse self)
                       (edge_attrs self)))
  end.

(** [edge - node]. *)
Definition Edge_sub_Node (self : EdgeObj) (other : NodeObj)
    : M (NodeObj + EdgeObj) :=
  Edge_connect self other.

(** [edge >> node]. *)
Definition Edge_rshift_Node (self : EdgeObj) (other : NodeObj)
    : M (NodeObj + EdgeObj) :=
  Edge_connect (mkEdge (edge_node self) true (reverse self) (edge_attrs self))
               other.

(** The script gives an edge at most its label, color and style, by
    keyword: [Edge(label=..., color=..., style=...)]. *)
Definition Edge (label color style : string) : EdgeObj :=
  Edge_init None false false label color style [].

(** ** The script *)

(** The variables the script binds; they are module globals and outlive the
    [with] blocks that assign them. *)
Record Globals : Type := mkGlobals {
  org : NodeObj;
  new_account : NodeObj;
  cloudtrail : NodeObj;
  s3 : NodeObj;
  event_bridge : NodeObj;
  lambda_func : NodeObj
}.

Definition title : string :=
  "Event-Driven SCP Attachment Architecture Diagram".

(** Lines 9-12, the source section. *)
Definition source_section : M (NodeObj * NodeObj) :=
  c <- Cluster_init ("AWS Organization" +:+ nl +:+ "(Source)") ;;
  with_ (Cluster_enter c) (Cluster_exit c) (
    org <- Node_init Organizations
             ("Organization Unit" +:+ nl +:+ "(SCP Policies)") ;;
    new_account <- Node_init OrganizationsAccount
                     ("New Account" +:+ nl +:+ "(Create/Join)") ;;
    Edge_sub_Node
      (Node_sub_Edge new_account
         (Edge ("Membership" +:+ nl +:+ "Request") "" "dashed"))
      org ;;;
    ret (org, new_account)).

(** Lines 15-18, the collection section. *)
Definition collection_section : M (NodeObj * NodeObj) :=
  c <- Cluster_init "Event Collection" ;;
  with_ (Cluster_enter c) (Cluster_exit c) (
    cloudtrail <- Node_init Cloudtrail
                    ("CloudTrail" +:+ nl +:+ "(Management Events)") ;;
    s3 <- Node_init S3 ("Log Storage" +:+ nl +:+ "(S3 Bucket)") ;;
    Edge_sub_Node (Node_sub_Edge cloudtrail (Edge "" "" "dashed")) s3 ;;;
    ret (cloudtrail, s3)).

(** Lines 21-24, the processing section. *)
Definition processing_section : M (NodeObj * NodeObj) :=
  c <- Cluster_init ("Event Processing" +:+ nl +:+ "(Automation)") ;;
  with_ (Cluster_enter c) (Cluster_exit c) (
    event_bridge <- Node_init Eventbridge
                      ("EventBridge" +:+ nl +:+ "(AcceptHandshake Rule)") ;;
    lambda_func <- Node_init Lambda
                     ("SCP Attachment" +:+ nl +:+ "Lambda Function") ;;
    Edge_rshift_Node
      (Node_rshift_Edge event_bridge (Edge "Trigger" "green4" ""))
      lambda_func ;;;
    ret (event_bridge, lambda_func)).

(** Lines 1-33, the whole script. *)
Definition script : M Globals :=
  import_diagrams ;;;
  d <- Diagram_init title "" "LR" "png" false ;;
  with_ (Diagram_enter d) (Diagram_exit d) (
    source <- source_section ;;
    let '(org, new_account) := source in
    collection <- collection_section ;;
    let '(cloudtrail, s3) := collection in
    processing <- processing_section ;;
    let '(event_bridge, lambda_func) := processing in
    (* lines 27-29, the flow connections *)
    Edge_rshift_Node
      (Node_rshift_Edge org
         (Edge ("1. Record" +:+ nl +:+ "Org Events") "" ""))
      cloudtrail ;;;
    Edge_rshift_Node
      (Node_rshift_Edge cloudtrail
         (Edge ("2. Forward" +:+ nl +:+ "AcceptHandshake") "" ""))
      event_bridge ;;;
    Edge_rshift_Node
      (Node_rshift_Edge lambda_func
         (Edge ("3. Apply SCP" +:+ nl +:+ "Policies") "red" ""))
      org ;;;
    (* lines 32-33, the invisible edges *)
    Edge_sub_Node (Node_sub_Edge new_account (Edge "" "" "invis"))
      cloudtrail ;;;
    Edge_sub_Node (Node_sub_Edge s3 (Edge "" "" "invis")) event_bridge ;;;
    ret (mkGlobals org new_account cloudtrail s3 event_bridge lambda_func)).


(** ** Reading a graph *)

Record NodeStmt : Type := mkNodeStmt {
  ns_id : NodeId;
  ns_label : string;
  ns_class : NodeClass
}.

Record EdgeStmt : Type := mkEdgeStmt {
  e_tail : NodeId;
  e_head : NodeId;
  e_attrs : Attrs
}.

Record ClusterStmt : Type := mkClusterStmt {
  cs_label : string;
  cs_members : list NodeId
}.

(** The node statements of a body, those inside clusters included. *)
Fixpoint item_nodes (i : Item) : list NodeStmt :=
  match i with
  | INode id label cls => [mkNodeStmt id label cls]
  | IEdge _ _ _ => []
  | ISubgraph _ b => flat_map item_nodes b
  end.

Definition nodes_of (b : list Item) : list NodeStmt := flat_map item_nodes b.

(** The edge statements of a body, those inside clusters included. *)
Fixpoint item_edges (i : Item) : list EdgeStmt :=
  match i with
  | INode _ _ _ => []
  | IEdge t h a => [mkEdgeStmt t h a]
  | ISubgraph _ b => flat_map item_edges b
  end.

Definition edges_of (b : list Item) : list EdgeStmt := flat_map item_edges b.

(** The nodes a body declares itself, not through a cluster inside it. *)
Definition members (b : list Item) : list NodeId :=
  flat_map (fun i => match i with INode id _ _ => [id] | _ => [] end) b.

(** The clusters of a body, at every depth, each with its members. *)
Fixpoint item_clusters (i : Item) : list ClusterStmt :=
  match i with
  | ISubgraph label b =>
      mkClusterStmt label (members b) :: flat_map item_clusters b
  | _ => []
  end.

Definition clusters_of (b : list Item) : list ClusterStmt :=
  flat_map item_clusters b.

(** The labels of the clusters a node is a member of. *)
Definition clusters_with (x : NodeId) (b : list Item) : list string :=
  map cs_label
      (filter (fun c => x ∈ cs_members c) (clusters_of b)).

Definition e_label (e : EdgeStmt) : option string := dict_get "label" (e_attrs e).
Definition e_color (e : EdgeStmt) : option string := dict_get "color" (e_attrs e).
Definition e_style (e : EdgeStmt) : option string := dict_get "style" (e_attrs e).
Definition e_dir (e : EdgeStmt) : option string := dict_get "dir" (e_attrs e).

(** An edge is drawn without arrow heads when the package gave it the
    direction ["none"], and with one or two when it gave it ["forward"],
    ["back"] or ["both"]. *)
Definition undirected (e : EdgeStmt) : bool :=
  bool_decide (e_dir e = Some "none").

Definition directed (e : EdgeStmt) : bool :=
  bool_decide (e_dir e ∈ [Some "forward"; Some "back"; Some "both"]).


Definition invisible (e : EdgeStmt) : bool :=
  bool_decide (e_style e = Some "invis").







(** A closed walk over directed edges: each edge ends where the next one
    starts, the last one ends where the first one starts, and no node is
    left twice. *)
Fixpoint chained (first : NodeId) (es : list EdgeStmt) : Prop :=
  match es with
  | [] => False
  | [e] => e_head e = first
  | e :: (e' :: _) as rest => e_head e = e_tail e' ∧ chained first rest
  end.

Definition cycle (es : list EdgeStmt) : Prop :=
  match es with
  | [] => False
  | e :: _ => chained (e_tail e) es ∧ NoDup (map e_tail es)
  end.

(** *** Graphs up to the numbering of their nodes *)

Fixpoint index_of (x : NodeId) (l : list NodeId) : option nat :=
  match l with
  | [] => None
  | y :: l' => if decide (x = y) then Some 0 else S <$> index_of x l'
  end.

Fixpoint rename_item (f : NodeId -> NodeId) (i : Item) : Item :=
  match i with
  | INode id label cls => INode (f id) label cls
  | IEdge t h a => IEdge (f t) (f h) a
  | ISubgraph label b => ISubgraph label (map (rename_item f) b)
  end.

(** Every node renamed to its rank among the node statements, in the order
    they stand in the body; a name that is not declared is kept. *)
Definition rank_in (b : list Item) (x : NodeId) : NodeId :=
  default x (index_of x (map ns_id (nodes_of b))).

Definition description (d : DiagramObj) : DiagramObj :=
  mkDiagram (name d) (filename d) (rankdir d) (outformat d) (show d)
            (map (rename_item (rank_in (body d))) (body d)).

(** *** Histories *)





(** The file a run leaves its image in. *)
Definition image_path_of_script : string := default_filename title +:+ ".png".

Definition image_at (w : World) : option File :=
  files w !! image_path_of_script.

(** ** What a run leaves behind, written out

    [n] is the number of objects made before the run.  The run makes ten:
    the diagram takes [n]; the three clusters take [1 + n], [4 + n] and
    [7 + n], each followed by its two nodes. *)

Definition declared (x : NodeObj) : Item :=
  INode (nodeid x) (node_label x) (node_class x).

Definition run_globals (n : nat) : Globals :=
  {| org := mkNode (2 + n) ("Organization Unit" +:+ nl +:+ "(SCP Policies)")
                   Organizations n;
     new_account := mkNode (3 + n) ("New Account" +:+ nl +:+ "(Create/Join)")
                           OrganizationsAccount n;
     cloudtrail := mkNode (5 + n)
                          ("CloudTrail" +:+ nl +:+ "(Management Events)")
                          Cloudtrail n;
     s3 := mkNode (6 + n) ("Log Storage" +:+ nl +:+ "(S3 Bucket)") S3 n;
     event_bridge := mkNode (8 + n)
                            ("EventBridge" +:+ nl +:+ "(AcceptHandshake Rule)")
                            Eventbridge n;
     lambda_func := mkNode (9 + n)
                           ("SCP Attachment" +:+ nl +:+ "Lambda Function")
                           Lambda n |}.

Definition source_cluster (g : Globals) : Item :=
  ISubgraph ("AWS Organization" +:+ nl +:+ "(Source)")
            [declared (org g); declared (new_account g)].

Definition collection_cluster (g : Globals) : Item :=
  ISubgraph "Event Collection" [declared (cloudtrail g); declared (s3 g)].

Definition processing_cluster (g : Globals) : Item :=
  ISubgraph ("Event Processing" +:+ nl +:+ "(Automation)")
            [declared (event_bridge g); declared (lambda_func g)].

Definition membership_edge (g : Globals) : EdgeStmt :=
  mkEdgeStmt (nodeid (new_account g)) (nodeid (org g))
    (default_edge_attrs
       ++ [("label", "Membership" +:+ nl +:+ "Request"); ("style", "dashed");
           ("dir", "none")])%list.

Definition storage_edge (g : Globals) : EdgeStmt :=
  mkEdgeStmt (nodeid (cloudtrail g)) (nodeid (s3 g))
    (default_edge_attrs ++ [("style", "dashed"); ("dir", "none")])%list.

Definition trigger_edge (g : Globals) : EdgeStmt :=
  mkEdgeStmt (nodeid (event_bridge g)) (nodeid (lambda_func g))
    (default_edge_attrs
       ++ [("label", "Trigger"); ("color", "green4"); ("dir", "forward")])%list.

Definition record_edge (g : Globals) : EdgeStmt :=
  mkEdgeStmt (nodeid (org g)) (nodeid (cloudtrail g))
    (default_edge_attrs
       ++ [("label", "1. Record" +:+ nl +:+ "Org Events");
           ("dir", "forward")])%list.

Definition forward_edge (g : Globals) : EdgeStmt :=
  mkEdgeStmt (nodeid (cloudtrail g)) (nodeid (event_bridge g))
    (default_edge_attrs
       ++ [("label", "2. Forward" +:+ nl +:+ "AcceptHandshake");
           ("dir", "forward")])%list.

Definition apply_edge (g : Globals) : EdgeStmt :=
  mkEdgeStmt (nodeid (lambda_func g)) (nodeid (org g))
    (default_edge_attrs
       ++ [("label", "3. Apply SCP" +:+ nl +:+ "Policies"); ("color", "red");
           ("dir", "forward")])%list.

Definition account_hint (g : Globals) : EdgeStmt :=
  mkEdgeStmt (nodeid (new_account g)) (nodeid (cloudtrail g))
    (default_edge_attrs ++ [("style", "invis"); ("dir", "none")])%list.

Definition storage_hint (g : Globals) : EdgeStmt :=
  mkEdgeStmt (nodeid (s3 g)) (nodeid (event_bridge g))
    (default_edge_attrs ++ [("style", "invis"); ("dir", "none")])%list.

Definition stmt (e : EdgeStmt) : Item := IEdge (e_tail e) (e_head e) (e_attrs e).

(** The body of the diagram when it is rendered.  An edge declared inside a
    [with Cluster] block stands before that cluster: the edge goes to the
    diagram at once, the cluster when its block ends. *)
Definition run_body (g : Globals) : list Item :=
  [ stmt (membership_edge g); source_cluster g;
    stmt (storage_edge g); collection_cluster g;
    stmt (trigger_edge g); processing_cluster g;
    stmt (record_edge g); stmt (forward_edge g); stmt (apply_edge g);
    stmt (account_hint g); stmt (storage_hint g) ].

Definition run_diagram (g : Globals) : DiagramObj :=
  mkDiagram title "event-driven_scp_attachment_architecture_diagram"
            "LR" "png" false (run_body g).

(** The calls of a run, in order. *)
Definition run_building (g : Globals) : list Call :=
  let source := "AWS Organization" +:+ nl +:+ "(Source)" in
  let collection := "Event Collection" in
  let processing := "Event Processing" +:+ nl +:+ "(Automation)" in
  [ OpenCluster source;
    ToCluster source (declared (org g));
    ToCluster source (declared (new_account g));
    ToDiagram (stmt (membership_edge g));
    ToDiagram (source_cluster g);
    CloseCluster source;
    OpenCluster collection;
    ToCluster collection (declared (cloudtrail g));
    ToCluster collection (declared (s3 g));
    ToDiagram (stmt (storage_edge g));
    ToDiagram (collection_cluster g);
    CloseCluster collection;
    OpenCluster processing;
    ToCluster processing (declared (event_bridge g));
    ToCluster processing (declared (lambda_func g));
    ToDiagram (stmt (trigger_edge g));
    ToDiagram (processing_cluster g);
    CloseCluster processing;
    ToDiagram (stmt (record_edge g)); ToDiagram (stmt (forward_edge g));
    ToDiagram (stmt (apply_edge g));
    ToDiagram (stmt (account_hint g)); ToDiagram (stmt (storage_hint g)) ].

Definition run_calls (g : Globals) : list Call :=
  Construct title :: run_building g
    ++ [Render "event-driven_scp_attachment_architecture_diagram.png"].

(** The three cluster objects as the run leaves them in the store. *)
Definition run_clusters_store (n : nat) (h : gmap nat ClusterObj)
    : gmap nat ClusterObj :=
  let g := run_globals n in
  store (7 + n)
    (mkCluster ("Event Processing" +:+ nl +:+ "(Automation)") n None
               [declared (event_bridge g); declared (lambda_func g)])
    (store (4 + n)
       (mkCluster "Event Collection" n None
                  [declared (cloudtrail g); declared (s3 g)])
       (store (1 + n)
          (mkCluster ("AWS Organization" +:+ nl +:+ "(Source)") n None
                     [declared (org g); declared (new_account g)])
          h)).

(** The disk after a run: the dot source is saved, the image is written,
    the dot source is removed. *)
Definition run_files (d : DiagramObj) (fs : gmap string File)
    : gmap string File :=
  removed "event-driven_scp_attachment_architecture_diagram"
    (written "event-driven_scp_attachment_architecture_diagram.png"
       (Rendered d)
       (written "event-driven_scp_attachment_architecture_diagram"
          (DotSource d) fs)).

Definition run_world (w : World) : World :=
  let n := allocated w in
  let g := run_globals n in
  mkWorld (argv w) (environ w)
          (run_files (run_diagram g) (files w))
          (viewed w) (10 + n)
          (store n (run_diagram g) (diagrams w))
          (run_clusters_store n (clusters w))
          None None (history w ++ run_calls g).

(** The same state with other command-line arguments, another environment
    or another disk. *)
Definition set_argv (a : list string) (w : World) : World :=
  mkWorld a (environ w) (files w) (viewed w) (allocated w) (diagrams w)
          (clusters w) (the_diagram w) (the_cluster w) (history w).

Definition set_environ (e : gmap string string) (w : World) : World :=
  mkWorld (argv w) e (files w) (viewed w) (allocated w) (diagrams w)
          (clusters w) (the_diagram w) (the_cluster w) (history w).

(** The class and the label, on one line, of each node the script binds. *)
Definition bound_as_written (g : Globals) : Prop :=
  map (fun x => (node_class x, one_line (node_label x)))
      [org g; new_account g; cloudtrail g; s3 g; event_bridge g; lambda_func g]
  = [ (Organizations, "Organization Unit (SCP Policies)");
      (OrganizationsAccount, "New Account (Create/Join)");
      (Cloudtrail, "CloudTrail (Management Events)");
      (S3, "Log Storage (S3 Bucket)");
      (Eventbridge, "EventBridge (AcceptHandshake Rule)");
      (Lambda, "SCP Attachment Lambda Function") ].

Definition ends (e : EdgeStmt) : NodeId * NodeId := (e_tail e, e_head e).

Definition node_stmt (x : NodeObj) : NodeStmt :=
  mkNodeStmt (nodeid x) (node_label x) (node_class x).

(** Decide the comparisons of node numbers left in a goal. *)
Ltac by_ids :=
  repeat case_decide; try reflexivity; try (exfalso; set_unfold; lia).

(** Unfold the six variables of a run down to their numbers. *)
Ltac unfold_ids :=
  cbn [run_globals org new_account cloudtrail s3 event_bridge lambda_func
       nodeid node_label node_class].

(** ** Further readings of a graph and of a file name *)

(** The characters of a string all pass a test. *)
Fixpoint all_chars (P : ascii -> bool) (s : string) : bool :=
  match s with
  | EmptyString => true
  | String c s' => P c && all_chars P s'
  end.

Definition isupper (c : ascii) : bool :=
  let n := nat_of_ascii c in (65 <=? n)%nat && (n <=? 90)%nat.

(** The characters on which [isspace] and [lower_char] are Python's
    [str.isspace] and [str.lower]: the ASCII ones. *)
Definition is_ascii (c : ascii) : bool := (nat_of_ascii c <? 128)%nat.

(** An ASCII character that is no white space. *)
Definition word_char (c : ascii) : bool := is_ascii c && negb (isspace c).

(** A character a file name derived from an ASCII title may hold: ASCII,
    no white space, no upper-case letter. *)
Definition plain (c : ascii) : bool :=
  is_ascii c && negb (isspace c) && negb (isupper c).

(** What a keyword argument gives when it is tested with [if value:]. *)
Definition keyword (v : string) : option string :=
  match v with
  | EmptyString => None
  | _ => Some v
  end.

(** The edge statements a body holds itself, not through a cluster. *)
Definition top_edges (b : list Item) : list EdgeStmt :=
  flat_map (fun i => match i with
                     | IEdge t h a => [mkEdgeStmt t h a]
                     | _ => []
                     end) b.

Definition is_node_stmt (i : Item) : bool :=
  match i with INode _ _ _ => true | _ => false end.

Definition is_cluster (i : Item) : bool :=
  match i with ISubgraph _ _ => true | _ => false end.

(** A statement that is not a cluster, or a cluster of node statements
    only. *)
Definition flat (i : Item) : bool :=
  match i with
  | ISubgraph _ b => forallb is_node_stmt b
  | _ => true
  end.

(** The edges that are drawn. *)
Definition visible_edges (b : list Item) : list EdgeStmt :=
  filter (fun e => ¬ invisible e) (edges_of b).

(** Two nodes with an edge between them, whichever way it points. *)
Definition joined (es : list EdgeStmt) (x y : NodeId) : Prop :=
  ∃ e, e ∈ es ∧ (ends e = (x, y) ∨ ends e = (y, x)).

(** The path the dot source of the script's diagram is saved under, and a
    state whose disk already holds a file there. *)
Definition source_path : string :=
  "event-driven_scp_attachment_architecture_diagram".

Definition occupied_world : World :=
  mkWorld [] ∅ {[ source_path := Data "notes" ]} [] 0 ∅ ∅ None None [].

(** A state in which one diagram and two nodes of it have been made, and
    no diagram is in scope any more. *)
Definition sample_diagram : DiagramObj :=
  mkDiagram "d" "d" "LR" "png" false [INode 1 "a" S3; INode 2 "b" Lambda].

Definition sample_world : World :=
  mkWorld [] ∅ ∅ [] 3 {[ 0 := sample_diagram ]} ∅ None None [].

(** One step of a run: unfold the calls of the package and of the script,
    and leave the strings, the stores and the disk folded. *)
Ltac run_step :=
  cbv beta iota zeta
      delta [script source_section collection_section processing_section
             bind ret raise with_ record import_diagrams
             getdiagram setdiagram getcluster setcluster rand_id new_object
             Diagram_enter Diagram_exit Diagram_render render Diagram_append
             os_remove image_path
             Cluster_init Cluster_enter Cluster_exit Cluster_append
             Node_init Node_connect Diagram_connect
             Edge_sub_Node Edge_rshift_Node Edge_connect
             Node_sub_Edge Node_rshift_Edge
             set_files set_viewed set_allocated set_diagrams set_clusters
             set_the_diagram set_the_cluster set_history
             argv environ files viewed allocated diagrams clusters
             the_diagram the_cluster history
             edge_node forward reverse edge_attrs
             name filename rankdir outformat show body
             cluster_label cluster_diagram cluster_parent cluster_body].

(** * Properties *)


(** ** Sanity checks of the string functions *)

Example split_title :
  split title
  = ["Event-Driven"; "SCP"; "Attachment"; "Architecture"; "Diagram"].
Proof. reflexivity. Qed.

Example split_drops_runs :
  split ("  a " +:+ nl +:+ "b  ") = ["a"; "b"].
Proof. reflexivity. Qed.

Example filename_of_title :
  default_filename title = "event-driven_scp_attachment_architecture_diagram".
Proof. reflexivity. Qed.

Example image_path_of_script_eq :
  image_path_of_script = "event-driven_scp_attachment_architecture_diagram.png".
Proof. reflexivity. Qed.

(** ** The run, step by step *)


Lemma record_all (cs : list Call) (h : list Call) :
  fold_left (fun acc c => (acc ++ [c])%list) cs h = (h ++ cs)%list.
Proof.
  revert h; induction cs as [|c cs IH]; intros h; simpl.
  - by rewrite app_nil_r.
  - by rewrite IH, <- app_assoc.
Qed.

Lemma deref_store {A} (r : Ref) (x : A) (h : gmap nat A) :
  deref r (store r x h) = Some x.
Proof. apply lookup_insert_eq. Qed.

Lemma store_store {A} (r : Ref) (x y : A) (h : gmap nat A) :
  store r x (store r y h) = store r x h.
Proof. apply insert_insert_eq. Qed.

Lemma saved_source_is_there (p q : string) (f g : File)
    (fs : gmap string File) :
  p ≠ q -> written q g (written p f fs) !! p = Some f.
Proof.
  intros H. unfold written. rewrite lookup_insert_ne by done.
  apply lookup_insert_eq.
Qed.

(** The diagram of the script is constructed without complaint. *)
Lemma Diagram_init_title (w : World) :
  Diagram_init title "" "LR" "png" false w
  = Ok (allocated w)
       (set_history (history w ++ [Construct title])
          (set_diagrams
             (store (allocated w)
                (mkDiagram title
                   "event-driven_scp_attachment_architecture_diagram"
                   "LR" "png" false [])
                (diagrams w))
             (set_allocated (S (allocated w)) w))).
Proof. reflexivity. Qed.

(** Every run succeeds, binds the six variables and leaves [run_world]. *)
Lemma script_runs (w : World) :
  script w = Ok (run_globals (allocated w)) (run_world w).
Proof.
  unfold run_world; cbv zeta.
  rewrite <- (record_all (run_calls (run_globals (allocated w))) (history w)).
  destruct w as [a e f v n ds cs td tc h].
  unfold script, bind at 1, import_diagrams.
  unfold bind at 1. rewrite Diagram_init_title.
  repeat (run_step;
          rewrite ?deref_store, ?store_store, ?saved_source_is_there by done).
  reflexivity.
Qed.

Lemma run_image (w : World) :
  image_at (run_world w)
  = Some (Rendered (run_diagram (run_globals (allocated w)))).
Proof.
  unfold image_at, run_world, run_files, removed, written; cbn [files].
  rewrite lookup_delete_ne by done. apply lookup_insert_eq.
Qed.

(** ** The rendered graph, read back *)

Lemma run_nodes (g : Globals) :
  nodes_of (run_body g)
  = [ node_stmt (org g); node_stmt (new_account g);
      node_stmt (cloudtrail g); node_stmt (s3 g);
      node_stmt (event_bridge g); node_stmt (lambda_func g) ].
Proof. reflexivity. Qed.

Lemma run_edges (g : Globals) :
  edges_of (run_body g)
  = [ membership_edge g; storage_edge g; trigger_edge g;
      record_edge g; forward_edge g; apply_edge g;
      account_hint g; storage_hint g ].
Proof. reflexivity. Qed.

Lemma run_clusters (g : Globals) :
  clusters_of (run_body g)
  = [ mkClusterStmt ("AWS Organization" +:+ nl +:+ "(Source)")
                    [nodeid (org g); nodeid (new_account g)];
      mkClusterStmt "Event Collection"
                    [nodeid (cloudtrail g); nodeid (s3 g)];
      mkClusterStmt ("Event Processing" +:+ nl +:+ "(Automation)")
                    [nodeid (event_bridge g); nodeid (lambda_func g)] ].
Proof. reflexivity. Qed.

Lemma run_ids (n : nat) :
  map ns_id (nodes_of (run_body (run_globals n)))
  = [2 + n; 3 + n; 5 + n; 6 + n; 8 + n; 9 + n].
Proof. reflexivity. Qed.

Lemma run_bound_as_written (n : nat) : bound_as_written (run_globals n).
Proof. reflexivity. Qed.

Lemma clusters_with_run (n : nat) :
  let b := run_body (run_globals n) in
  clusters_with (2 + n) b = ["AWS Organization" +:+ nl +:+ "(Source)"]
  ∧ clusters_with (3 + n) b = ["AWS Organization" +:+ nl +:+ "(Source)"]
  ∧ clusters_with (5 + n) b = ["Event Collection"]
  ∧ clusters_with (6 + n) b = ["Event Collection"]
  ∧ clusters_with (8 + n) b = ["Event Processing" +:+ nl +:+ "(Automation)"]
  ∧ clusters_with (9 + n) b = ["Event Processing" +:+ nl +:+ "(Automation)"].
Proof.
  intros b; subst b; unfold clusters_with; rewrite run_clusters; unfold_ids.
  repeat split; repeat (rewrite filter_cons; cbn [cs_members]); by_ids.
Qed.

(** ** C5 *)

(** C5. In the graph every run renders there are six nodes and three
    clusters; no node is declared twice; every node is a member of exactly
    one cluster (so of zero or one), and the three clusters hold the six
    nodes two by two. *)
Theorem each_node_in_exactly_one_cluster (w : World) :
  ∃ g w' d,
    script w = Ok g w' ∧ image_at w' = Some (Rendered d) ∧
    bound_as_written g ∧
    length (nodes_of (body d)) = 6 ∧
    length (clusters_of (body d)) = 3 ∧
    NoDup (map ns_id (nodes_of (body d))) ∧
    (∀ x, x ∈ map ns_id (nodes_of (body d)) →
          length (clusters_with x (body d)) = 1) ∧
    map cs_members (clusters_of (body d))
    = [ [nodeid (org g); nodeid (new_account g)];
        [nodeid (cloudtrail g); nodeid (s3 g)];
        [nodeid (event_bridge g); nodeid (lambda_func g)] ].
Proof.
  exists (run_globals (allocated w)), (run_world w),
         (run_diagram (run_globals (allocated w))).
  split; [apply script_runs|]. split; [apply run_image|].
  split; [apply run_bound_as_written|].
  generalize (allocated w) as n; intros n.
  cbn [body run_diagram].
  split; [reflexivity|]. split; [reflexivity|].
  split.
  { rewrite run_ids. repeat (apply NoDup_cons; split; [set_unfold; lia|]).
    apply NoDup_nil_2. }
  split; [|reflexivity].
  intros x Hx. rewrite run_ids in Hx.
  destruct (clusters_with_run n) as (H0 & H1 & H2 & H3 & H4 & H5).
  set_unfold in Hx.
  destruct Hx as [->|[->|[->|[->|[->|[->|[]]]]]]];
    [rewrite H0|rewrite H1|rewrite H2|rewrite H3|rewrite H4|rewrite H5];
    reflexivity.
Qed.

(** ** C6 *)

(** C6. The rendered graph has exactly two edges of style invis, the one
    from New Account to CloudTrail and the one from S3 to EventBridge.
    Each is undirected, has no label and no color, and carries, after the
    font attributes every edge starts with, nothing but its style and its
    direction; and leaving the two out changes nothing about the directed
    edges, the flow the diagram shows. *)
Theorem two_invisible_edges_are_layout_hints (w : World) :
  ∃ g w' d,
    script w = Ok g w' ∧ image_at w' = Some (Rendered d) ∧
    bound_as_written g ∧
    let es := edges_of (body d) in
    map ends (filter invisible es)
    = [ (nodeid (new_account g), nodeid (cloudtrail g));
        (nodeid (s3 g), nodeid (event_bridge g)) ] ∧
    Forall (fun e => undirected e ∧ ¬ directed e ∧ e_label e = None
                     ∧ e_color e = None ∧ e_style e = Some "invis"
                     ∧ e_attrs e
                       = (default_edge_attrs
                            ++ [("style", "invis"); ("dir", "none")])%list)
           (filter invisible es) ∧
    filter directed (filter (fun e => ¬ invisible e) es) = filter directed es.
Proof.
  exists (run_globals (allocated w)), (run_world w),
         (run_diagram (run_globals (allocated w))).
  split; [apply script_runs|]. split; [apply run_image|].
  split; [apply run_bound_as_written|].
  cbv zeta; cbn [body run_diagram]; rewrite run_edges.
  split; [reflexivity|]. split; [|reflexivity].
  repeat constructor; try reflexivity; cbv; tauto.
Qed.

(** ** C10 *)


(** ** C4 *)


(** ** C2 *)

Lemma rank_in_run (n : nat) :
  let r := rank_in (run_body (run_globals n)) in
  r (2 + n) = 0 ∧ r (3 + n) = 1 ∧ r (5 + n) = 2 ∧ r (6 + n) = 3
  ∧ r (8 + n) = 4 ∧ r (9 + n) = 5.
Proof.
  intros r; subst r; unfold rank_in; rewrite run_ids.
  repeat split; cbn [index_of]; by_ids.
Qed.

(** Up to the numbering of its nodes, the graph of a run is the graph of
    the run that starts numbering at zero. *)
Lemma description_run (n : nat) :
  description (run_diagram (run_globals n))
  = description (run_diagram (run_globals 0)).
Proof.
  etrans; [|symmetry]; cycle 1.
  { vm_compute. reflexivity. }
  destruct (rank_in_run n) as (H0 & H1 & H2 & H3 & H4 & H5).
  unfold description, run_diagram; cbn [name filename rankdir outformat show body].
  f_equal.
  set (r := rank_in (run_body (run_globals n))) in *.
  cbn -[r]; cbn [Nat.add] in H0, H1, H2, H3, H4, H5.
  by rewrite H0, H1, H2, H3, H4, H5.
Qed.

(** C2. Any two runs, from whatever states, render graphs that are the same
    up to the numbering of their nodes: the same name, direction and
    format, six nodes, three clusters and eight edges with the same
    labels, styles and colors, standing in the same places.  Runs that
    start numbering at the same point render the very same graph. *)
Theorem every_run_builds_the_same_graph (w1 w2 : World) :
  ∃ g1 w1' d1 g2 w2' d2,
    script w1 = Ok g1 w1' ∧ image_at w1' = Some (Rendered d1) ∧
    script w2 = Ok g2 w2' ∧ image_at w2' = Some (Rendered d2) ∧
    description d1 = description d2 ∧
    length (nodes_of (body d1)) = 6 ∧
    length (clusters_of (body d1)) = 3 ∧
    length (edges_of (body d1)) = 8 ∧
    map (fun x => (ns_label x, ns_class x)) (nodes_of (body d1))
    = map (fun x => (ns_label x, ns_class x)) (nodes_of (body d2)) ∧
    map cs_label (clusters_of (body d1)) = map cs_label (clusters_of (body d2)) ∧
    map e_attrs (edges_of (body d1)) = map e_attrs (edges_of (body d2)) ∧
    (allocated w1 = allocated w2 → d1 = d2 ∧ g1 = g2).
Proof.
  exists (run_globals (allocated w1)), (run_world w1),
         (run_diagram (run_globals (allocated w1))),
         (run_globals (allocated w2)), (run_world w2),
         (run_diagram (run_globals (allocated w2))).
  split; [apply script_runs|]. split; [apply run_image|].
  split; [apply script_runs|]. split; [apply run_image|].
  split; [etrans; [apply description_run|symmetry; apply description_run]|].
  repeat (split; [reflexivity|]).
  by intros ->.
Qed.

(** ** The package outside the script's path *)

(** A node made while no diagram is in scope is refused. *)
Example node_needs_a_diagram (w : World) :
  (import_diagrams ;;; Node_init S3 "bucket") w
  = Raise not_set_up
          (set_allocated (S (allocated w))
             (set_the_diagram None (set_the_cluster None w))).
Proof. reflexivity. Qed.

(** A direction the package does not know is refused, and nothing is
    constructed. *)
Example unknown_direction_is_refused (w : World) :
  Diagram_init title "" "UP" "png" false w = Raise (ValueError "UP") w.
Proof. reflexivity. Qed.

(** The output format is compared in lower case. *)
Example upper_case_format_is_accepted :
  validate_outformat "PNG" = true ∧ validate_outformat "gif" = false.
Proof. split; reflexivity. Qed.

(** A diagram built with [show=True] hands its image to a viewer. *)
Lemma render_shows (d : DiagramObj) (w : World) :
  show d = true ->
  viewed (world_of (render d w)) = (viewed w ++ [image_path d])%list.
Proof. intros H; unfold render; rewrite H; reflexivity. Qed.

(** A diagram built with [show=False] does not. *)
Lemma render_quietly (d : DiagramObj) (w : World) :
  show d = false -> viewed (world_of (render d w)) = viewed w.
Proof. intros H; unfold render; rewrite H; reflexivity. Qed.

(** The image never lies at the path of the dot source. *)
Lemma source_path_is_not_image_path (s t : string) : s ≠ s +:+ "." +:+ t.
Proof.
  induction s as [|c s IH]; simpl; [discriminate|].
  intros [=H]. by apply IH.
Qed.

(** Leaving the [with] block of a diagram, whatever the diagram holds:
    the image is written, the file at the path of the dot source is gone,
    and no diagram is in scope. *)
Lemma Diagram_exit_runs (self : Ref) (d : DiagramObj) (w : World) :
  deref self (diagrams w) = Some d ->
  Diagram_exit self w
  = Ok tt
       (set_the_diagram None
          (set_files
             (removed (filename d)
                (written (image_path d) (Rendered d)
                   (written (filename d) (DotSource d) (files w))))
             (world_of (render d w)))).
Proof.
  intros Hd. unfold Diagram_exit, Diagram_render, bind. rewrite Hd.
  unfold render, record, os_remove.
  destruct (show d); cbn [diagrams set_history set_viewed set_files files];
    rewrite Hd; cbn [files];
    rewrite saved_source_is_there by apply source_path_is_not_image_path;
    reflexivity.
Qed.

(** A [with] block that raises still leaves through its exit. *)
Example with_leaves_on_raise (self : Ref) (d : DiagramObj) (w : World) :
  deref self (diagrams w) = Some d ->
  the_diagram
    (world_of
       (with_ (Diagram_enter self) (Diagram_exit self)
              (raise (ValueError "x") : M unit) w))
  = None.
Proof.
  intros Hd. unfold with_, Diagram_enter, setdiagram, raise.
  by rewrite (Diagram_exit_runs self d).
Qed.

(** ** The disk after a run *)

Lemma run_files_eq (d : DiagramObj) (fs : gmap string File) :
  run_files d fs
  = delete source_path
      (<["event-driven_scp_attachment_architecture_diagram.png" :=
           Rendered d]> fs).
Proof.
  unfold run_files, removed, written, source_path.
  rewrite (delete_insert_ne (<[_ := DotSource d]> fs)) by done.
  rewrite delete_insert_eq. by rewrite (delete_insert_ne fs).
Qed.

(** ** C1 *)

(** C1. A run leaves one file that it made, the image.  Its path is the
    file name the package derives from the title (its words in lower case,
    joined by underscores) with the format after a dot, and no path that
    held no file before the run holds one after it, that path apart.  The
    disk after the run is the disk before it with the image written and
    the path of the dot source cleared.  The nodes bound and the image
    written are the same whatever the command-line arguments, the
    environment and the disk were before the run. *)
Theorem one_image_named_after_the_title (w : World) :
  ∃ g w' d,
    script w = Ok g w' ∧
    name d = "Event-Driven SCP Attachment Architecture Diagram" ∧
    filename d = lower (join "_" (split (name d))) ∧
    filename d +:+ ".png"
    = "event-driven_scp_attachment_architecture_diagram.png" ∧
    files w' !! (filename d +:+ ".png") = Some (Rendered d) ∧
    (∀ p, p ≠ filename d +:+ ".png" → files w !! p = None →
          files w' !! p = None) ∧
    files w'
    = delete (filename d) (<[filename d +:+ ".png" := Rendered d]> (files w)) ∧
    ∀ (a : list string) (e : gmap string string) (f : gmap string File),
      ∃ w'',
        script (set_argv a (set_environ e (set_files f w))) = Ok g w'' ∧
        files w''
        = delete (filename d) (<[filename d +:+ ".png" := Rendered d]> f).
Proof.
  exists (run_globals (allocated w)), (run_world w),
         (run_diagram (run_globals (allocated w))).
  split; [apply script_runs|]. split; [reflexivity|].
  split; [reflexivity|]. split; [reflexivity|].
  split; [apply run_image|].
  split.
  { intros p Hp Hnone. unfold run_world; cbn [files]. rewrite run_files_eq.
    destruct (decide (p = source_path)) as [->|Hs].
    - apply lookup_delete_eq.
    - rewrite lookup_delete_ne by done.
      rewrite lookup_insert_ne; [exact Hnone|].
      intros Heq; apply Hp; rewrite <- Heq; reflexivity. }
  split; [unfold run_world; cbn [files]; apply run_files_eq|].
  intros a e f. exists (run_world (set_argv a (set_environ e (set_files f w)))).
  split; [exact (script_runs _)|].
  unfold run_world; cbn [files set_argv set_environ set_files].
  apply run_files_eq.
Qed.

(** ** C7 *)

(** C7, as the spec states it, fails: a file that lies at the path of the
    dot source before the run is gone after it, so it is not true that the
    disk is unchanged at every path but the image's. *)
Lemma a_file_at_the_source_path_is_removed :
  ¬ ∃ g w',
      script occupied_world = Ok g w' ∧
      ∀ p, p ≠ image_path_of_script →
           files w' !! p = files occupied_world !! p.
Proof.
  intros (g & w' & Hrun & Hframe).
  rewrite script_runs in Hrun. injection Hrun as _ <-.
  specialize (Hframe source_path ltac:(done)).
  unfold run_world in Hframe; cbn [files occupied_world] in Hframe.
  rewrite run_files_eq, lookup_delete_eq in Hframe.
  by rewrite lookup_singleton_eq in Hframe.
Qed.

(** C7, amended. A run changes the disk at two paths and nowhere else: at
    the path of the image, where the image is written, and at the path of
    the dot source (the file name without the format), which holds no file
    after the run.  The command-line arguments, the environment and the
    list of files handed to a viewer stay as they were, and the package's
    two context variables are empty when the run ends. *)
Theorem disk_changes_at_the_image_and_the_source_path_only (w : World) :
  ∃ g w' d,
    script w = Ok g w' ∧
    filename d = "event-driven_scp_attachment_architecture_diagram" ∧
    files w' !! image_path_of_script = Some (Rendered d) ∧
    files w' !! filename d = None ∧
    (∀ p, p ≠ image_path_of_script → p ≠ filename d →
          files w' !! p = files w !! p) ∧
    argv w' = argv w ∧
    environ w' = environ w ∧
    viewed w' = viewed w ∧
    the_diagram w' = None ∧
    the_cluster w' = None.
Proof.
  exists (run_globals (allocated w)), (run_world w),
         (run_diagram (run_globals (allocated w))).
  split; [apply script_runs|]. split; [reflexivity|].
  split; [apply run_image|].
  split.
  { unfold run_world; cbn [files]. rewrite run_files_eq.
    apply lookup_delete_eq. }
  split; [|by repeat split].
  intros p Hp Hs. unfold run_world; cbn [files]. rewrite run_files_eq.
  rewrite lookup_delete_ne by (intros Heq; apply Hs; rewrite <- Heq; reflexivity).
  apply lookup_insert_ne. intros Heq; apply Hp; rewrite <- Heq; reflexivity.
Qed.

(** ** C9 *)

(** C9. The diagram every run renders was built with [show] off and the
    direction LR; the image is written and no file is handed to a
    viewer. *)
Theorem rendered_left_to_right_without_a_viewer (w : World) :
  ∃ g w' d,
    script w = Ok g w' ∧ image_at w' = Some (Rendered d) ∧
    show d = false ∧
    rankdir d = "LR" ∧
    viewed w' = viewed w.
Proof.
  exists (run_globals (allocated w)), (run_world w),
         (run_diagram (run_globals (allocated w))).
  split; [apply script_runs|]. split; [apply run_image|]. by repeat split.
Qed.

(** ** C3 *)


(** * Further properties *)

(** ** File names derived from titles *)

Lemma plain_lower_char (c : ascii) :
  word_char c = true -> plain (lower_char c) = true.
Proof.
  destruct c as [[] [] [] [] [] [] [] []]; vm_compute; congruence.
Qed.

Lemma all_chars_app (P : ascii -> bool) (s t : string) :
  all_chars P (s +:+ t) = all_chars P s && all_chars P t.
Proof.
  induction s as [|c s IH]; simpl; [reflexivity|].
  by rewrite IH, andb_assoc.
Qed.

Lemma split_from_words (s word : string) :
  all_chars is_ascii s = true ->
  all_chars word_char word = true ->
  Forall (fun x => all_chars word_char x = true) (split_from word s).
Proof.
  revert word; induction s as [|c s IH]; intros word Hs Hw; simpl.
  - destruct word; [constructor|]. by repeat constructor.
  - simpl in Hs. apply andb_prop in Hs as [Hc Hs].
    destruct (isspace c) eqn:Hsp.
    + destruct word; [by apply IH|]. constructor; [done|by apply IH].
    + apply IH; [done|]. rewrite all_chars_app, Hw; simpl.
      unfold word_char. by rewrite Hc, Hsp.
Qed.

Lemma join_words (ws : list string) :
  Forall (fun x => all_chars word_char x = true) ws ->
  all_chars word_char (join "_" ws) = true.
Proof.
  induction 1 as [|w ws Hw Hws IH]; [reflexivity|].
  destruct ws as [|w' ws]; [exact Hw|].
  change (join "_" (w :: w' :: ws)) with (w +:+ "_" +:+ join "_" (w' :: ws)).
  by rewrite !all_chars_app, Hw, IH.
Qed.

Lemma lower_plain (s : string) :
  all_chars word_char s = true -> all_chars plain (lower s) = true.
Proof.
  induction s as [|c s IH]; simpl; [done|].
  intros [Hc Hs]%andb_prop. rewrite IH by done.
  by rewrite plain_lower_char.
Qed.

(** X1. Whatever ASCII title a diagram is given, the file name derived
    from it holds ASCII characters only, no white space and no upper-case
    letter. *)
Theorem default_filename_is_plain (title : string) :
  all_chars is_ascii title = true ->
  all_chars plain (default_filename title) = true.
Proof.
  intros Ht. unfold default_filename. apply lower_plain, join_words.
  by apply split_from_words.
Qed.

Lemma default_filename_is_plain_witness :
  all_chars is_ascii title = true
  ∧ all_chars plain (default_filename title) = true.
Proof.
  split; [reflexivity|].
  apply (default_filename_is_plain title). reflexivity.
Defined.

(** ** The edge operators, for any two nodes *)

Lemma dict_get_set (k v : string) (d : Attrs) :
  dict_get k (dict_set k v d) = Some v.
Proof.
  induction d as [|[k' v'] d IH]; simpl.
  - by rewrite String.eqb_refl.
  - destruct (String.eqb k k') eqn:E; simpl.
    + by rewrite String.eqb_refl.
    + by rewrite E.
Qed.

Lemma dict_get_set_other (k k' v : string) (d : Attrs) :
  k ≠ k' -> dict_get k' (dict_set k v d) = dict_get k' d.
Proof.
  intros Hne. induction d as [|[k0 v0] d IH]; simpl.
  - destruct (String.eqb k' k) eqn:E; [|done].
    apply String.eqb_eq in E. congruence.
  - destruct (String.eqb k k0) eqn:E; simpl.
    + apply String.eqb_eq in E; subst k0.
      destruct (String.eqb k' k) eqn:E'; [|done].
      apply String.eqb_eq in E'. congruence.
    + by rewrite IH.
Qed.

(** The attributes of [Edge(label=..., color=..., style=...)]: the three
    font attributes every edge starts with, and a keyword only when it is
    not empty. *)
Lemma Edge_keywords (label color style : string) :
  let a := edge_attrs (Edge label color style) in
  dict_get "label" a = keyword label
  ∧ dict_get "color" a = keyword color
  ∧ dict_get "style" a = keyword style
  ∧ dict_get "fontcolor" a = Some "#2D3436"
  ∧ dict_get "fontname" a = Some "Sans-Serif"
  ∧ dict_get "fontsize" a = Some "13"
  ∧ dict_get "dir" a = None.
Proof. destruct label, color, style; repeat split. Qed.

(** What connecting through an edge object does, whatever the direction
    flags of the edge. *)
Lemma Node_connect_runs (a b : NodeObj) (e : EdgeObj) (d : DiagramObj)
    (w : World) :
  deref (node_diagram a) (diagrams w) = Some d ->
  Node_connect a b e w
  = Ok b
       (set_history
          (history w ++ [ToDiagram (IEdge (nodeid a) (nodeid b) (Edge_attrs e))])
          (set_diagrams
             (store (node_diagram a)
                (mkDiagram (name d) (filename d) (rankdir d) (outformat d)
                   (show d)
                   (body d ++ [IEdge (nodeid a) (nodeid b) (Edge_attrs e)]))
                (diagrams w)) w)).
Proof.
  intros Hd. unfold Node_connect, Diagram_connect, Diagram_append, bind.
  by rewrite Hd.
Qed.

(** X2. For any two nodes and any label, color and style, [a - Edge(...) -
    b] returns [b] and appends one edge statement from [a] to [b] to the
    end of the body of the diagram [a] was made in, whatever diagram is in
    scope, if any; no other diagram changes.  The edge has the direction
    none, keeps the three font attributes, and carries the label, color
    and style that are not empty.  The diagram and cluster in scope, the
    clusters, the disk and the count of objects stay as they were. *)
Theorem dash_adds_one_undirected_edge
    (a b : NodeObj) (label color style : string) (d : DiagramObj) (w : World) :
  deref (node_diagram a) (diagrams w) = Some d ->
  ∃ w' attrs,
    Edge_sub_Node (Node_sub_Edge a (Edge label color style)) b w
    = Ok (inl b) w' ∧
    deref (node_diagram a) (diagrams w')
    = Some (mkDiagram (name d) (filename d) (rankdir d) (outformat d)
                      (show d)
                      (body d ++ [IEdge (nodeid a) (nodeid b) attrs])) ∧
    (∀ r, r ≠ node_diagram a →
          deref r (diagrams w') = deref r (diagrams w)) ∧
    dict_get "dir" attrs = Some "none" ∧
    dict_get "label" attrs = keyword label ∧
    dict_get "color" attrs = keyword color ∧
    dict_get "style" attrs = keyword style ∧
    dict_get "fontcolor" attrs = Some "#2D3436" ∧
    dict_get "fontname" attrs = Some "Sans-Serif" ∧
    dict_get "fontsize" attrs = Some "13" ∧
    the_diagram w' = the_diagram w ∧
    the_cluster w' = the_cluster w ∧
    clusters w' = clusters w ∧
    files w' = files w ∧
    allocated w' = allocated w.
Proof.
  intros Hd.
  destruct (Edge_keywords label color style)
    as (Hl & Hc & Hs & Hf1 & Hf2 & Hf3 & _).
  eexists _, (dict_set "dir" "none" (edge_attrs (Edge label color style))).
  split.
  { unfold Edge_sub_Node, Edge_connect, Node_sub_Edge; cbn [edge_node].
    unfold bind. rewrite (Node_connect_runs _ _ _ d) by exact Hd.
    reflexivity. }
  cbn [the_diagram the_cluster clusters files allocated diagrams
       set_diagrams set_history].
  split; [apply deref_store|].
  split; [intros r Hr; unfold deref, store; by rewrite lookup_insert_ne|].
  split; [apply dict_get_set|].
  by rewrite !dict_get_set_other.
Qed.

Lemma dash_adds_one_undirected_edge_witness :
  deref 0 (diagrams sample_world) = Some sample_diagram
  ∧ the_diagram sample_world = None
  ∧ ∃ w',
      Edge_sub_Node
        (Node_sub_Edge (mkNode 1 "a" S3 0) (Edge "" "" "dashed"))
        (mkNode 2 "b" Lambda 0) sample_world
      = Ok (inl (mkNode 2 "b" Lambda 0)) w'.
Proof.
  split; [reflexivity|]. split; [reflexivity|].
  destruct (dash_adds_one_undirected_edge
              (mkNode 1 "a" S3 0) (mkNode 2 "b" Lambda 0) "" "" "dashed"
              sample_diagram sample_world eq_refl) as (w' & _ & H & _).
  exists w'. exact H.
Defined.

(** X3. For any two nodes and any label, color and style, [a >> Edge(...)
    >> b] does the same with the direction forward. *)
Theorem shift_adds_one_forward_edge
    (a b : NodeObj) (label color style : string) (d : DiagramObj) (w : World) :
  deref (node_diagram a) (diagrams w) = Some d ->
  ∃ w' attrs,
    Edge_rshift_Node (Node_rshift_Edge a (Edge label color style)) b w
    = Ok (inl b) w' ∧
    deref (node_diagram a) (diagrams w')
    = Some (mkDiagram (name d) (filename d) (rankdir d) (outformat d)
                      (show d)
                      (body d ++ [IEdge (nodeid a) (nodeid b) attrs])) ∧
    (∀ r, r ≠ node_diagram a →
          deref r (diagrams w') = deref r (diagrams w)) ∧
    dict_get "dir" attrs = Some "forward" ∧
    dict_get "label" attrs = keyword label ∧
    dict_get "color" attrs = keyword color ∧
    dict_get "style" attrs = keyword style ∧
    dict_get "fontcolor" attrs = Some "#2D3436" ∧
    dict_get "fontname" attrs = Some "Sans-Serif" ∧
    dict_get "fontsize" attrs = Some "13" ∧
    the_diagram w' = the_diagram w ∧
    the_cluster w' = the_cluster w ∧
    clusters w' = clusters w ∧
    files w' = files w ∧
    allocated w' = allocated w.
Proof.
  intros Hd.
  destruct (Edge_keywords label color style)
    as (Hl & Hc & Hs & Hf1 & Hf2 & Hf3 & _).
  eexists _, (dict_set "dir" "forward" (edge_attrs (Edge label color style))).
  split.
  { unfold Edge_rshift_Node, Edge_connect, Node_rshift_Edge; cbn [edge_node].
    unfold bind. rewrite (Node_connect_runs _ _ _ d) by exact Hd.
    reflexivity. }
  cbn [the_diagram the_cluster clusters files allocated diagrams
       set_diagrams set_history].
  split; [apply deref_store|].
  split; [intros r Hr; unfold deref, store; by rewrite lookup_insert_ne|].
  split; [apply dict_get_set|].
  by rewrite !dict_get_set_other.
Qed.

Lemma shift_adds_one_forward_edge_witness :
  deref 0 (diagrams sample_world) = Some sample_diagram
  ∧ the_diagram sample_world = None
  ∧ ∃ w',
      Edge_rshift_Node
        (Node_rshift_Edge (mkNode 1 "a" S3 0) (Edge "go" "red" ""))
        (mkNode 2 "b" Lambda 0) sample_world
      = Ok (inl (mkNode 2 "b" Lambda 0)) w'.
Proof.
  split; [reflexivity|]. split; [reflexivity|].
  destruct (shift_adds_one_forward_edge
              (mkNode 1 "a" S3 0) (mkNode 2 "b" Lambda 0) "go" "red" ""
              sample_diagram sample_world eq_refl) as (w' & _ & H & _).
  exists w'. exact H.
Defined.

(** ** The shape of the rendered graph *)

(** X4. In the graph every run renders, the three clusters stand side by
    side in the diagram and hold node statements only: no cluster is inside
    another, and all eight edges are statements of the diagram itself, also
    the three the script declares inside a [with Cluster] block. *)
Theorem clusters_are_flat_and_hold_no_edge (w : World) :
  ∃ g w' d,
    script w = Ok g w' ∧ image_at w' = Some (Rendered d) ∧
    Forall (fun i => flat i) (body d) ∧
    length (filter (fun i => is_cluster i) (body d)) = 3 ∧
    top_edges (body d) = edges_of (body d) ∧
    length (top_edges (body d)) = 8 ∧
    members (body d) = [].
Proof.
  exists (run_globals (allocated w)), (run_world w),
         (run_diagram (run_globals (allocated w))).
  split; [apply script_runs|]. split; [apply run_image|].
  cbn [body run_diagram].
  split; [repeat constructor|]. by repeat split.
Qed.

Lemma joined_sym (es : list EdgeStmt) (x y : NodeId) :
  joined es x y -> joined es y x.
Proof. intros (e & He & [H|H]); exists e; auto. Qed.

Lemma joined_rtc_sym (es : list EdgeStmt) (x y : NodeId) :
  rtc (joined es) x y -> rtc (joined es) y x.
Proof.
  induction 1 as [|x y z Hxy _ IH]; [done|].
  etrans; [exact IH|]. apply rtc_once, joined_sym, Hxy.
Qed.

(** X5. The edges that are drawn connect the graph: in the graph every run
    renders, any two nodes are linked by a chain of edges none of which is
    invisible, whichever way the edges point. *)
Theorem drawn_edges_connect_all_nodes (w : World) :
  ∃ g w' d,
    script w = Ok g w' ∧ image_at w' = Some (Rendered d) ∧
    length (visible_edges (body d)) = 6 ∧
    ∀ x y,
      x ∈ map ns_id (nodes_of (body d)) →
      y ∈ map ns_id (nodes_of (body d)) →
      rtc (joined (visible_edges (body d))) x y.
Proof.
  exists (run_globals (allocated w)), (run_world w),
         (run_diagram (run_globals (allocated w))).
  split; [apply script_runs|]. split; [apply run_image|].
  generalize (allocated w) as n; intros n.
  cbn [body run_diagram]. split; [reflexivity|].
  rewrite run_ids.
  set (g := run_globals n).
  assert (Hes : visible_edges (run_body g)
                = [membership_edge g; storage_edge g; trigger_edge g;
                   record_edge g; forward_edge g; apply_edge g])
    by reflexivity.
  rewrite Hes.
  set (es := [membership_edge g; storage_edge g; trigger_edge g;
              record_edge g; forward_edge g; apply_edge g]).
  assert (H1 : joined es (2 + n) (3 + n)).
  { exists (membership_edge g). split; [repeat constructor|by right]. }
  assert (H2 : joined es (2 + n) (5 + n)).
  { exists (record_edge g). split; [repeat constructor|by left]. }
  assert (H3 : joined es (5 + n) (6 + n)).
  { exists (storage_edge g). split; [repeat constructor|by left]. }
  assert (H4 : joined es (5 + n) (8 + n)).
  { exists (forward_edge g). split; [repeat constructor|by left]. }
  assert (H5 : joined es (8 + n) (9 + n)).
  { exists (trigger_edge g). split; [repeat constructor|by left]. }
  assert (Hfrom : ∀ x, x ∈ [2 + n; 3 + n; 5 + n; 6 + n; 8 + n; 9 + n] →
                       rtc (joined es) (2 + n) x).
  { intros x Hx. set_unfold in Hx.
    destruct Hx as [->|[->|[->|[->|[->|[->|[]]]]]]].
    - done.
    - by apply rtc_once.
    - by apply rtc_once.
    - eapply rtc_l; [exact H2|]. by apply rtc_once.
    - eapply rtc_l; [exact H2|]. by apply rtc_once.
    - eapply rtc_l; [exact H2|]. eapply rtc_l; [exact H4|]. by apply rtc_once. }
  intros x y Hx Hy. etrans; [apply joined_rtc_sym, Hfrom, Hx|apply Hfrom, Hy].
Qed.

(** X6. The rendered graph has no two edges between the same two nodes, in
    either direction, and no edge from a node to itself: the sixteen ordered
    pairs of ends, each edge read both ways, are all different. *)
Theorem no_parallel_edges (w : World) :
  ∃ g w' d,
    script w = Ok g w' ∧ image_at w' = Some (Rendered d) ∧
    NoDup (map ends (edges_of (body d))
             ++ map (fun e => (e_head e, e_tail e)) (edges_of (body d)))%list.
Proof.
  exists (run_globals (allocated w)), (run_world w),
         (run_diagram (run_globals (allocated w))).
  split; [apply script_runs|]. split; [apply run_image|].
  generalize (allocated w) as n; intros n.
  cbn [body run_diagram]; rewrite run_edges. cbn.
  repeat (apply NoDup_cons; split;
          [set_unfold; intros H;
           repeat (destruct H as [H|H]); try done; inversion H; lia|]).
  apply NoDup_nil_2.
Qed.

(** X7. The six nodes of the rendered graph carry six different labels, and
    their icons come from the modules the script imports them from: three
    from management, then one each from storage, integration and compute, in
    the order Organizations, OrganizationsAccount, Cloudtrail, S3,
    Eventbridge, Lambda. *)
Theorem nodes_have_distinct_labels_and_imported_icons (w : World) :
  ∃ g w' d,
    script w = Ok g w' ∧ image_at w' = Some (Rendered d) ∧
    NoDup (map ns_label (nodes_of (body d))) ∧
    map (fun x => (ns_class x, category (ns_class x))) (nodes_of (body d))
    = [ (Organizations, "management"); (OrganizationsAccount, "management");
        (Cloudtrail, "management"); (S3, "storage");
        (Eventbridge, "integration"); (Lambda, "compute") ].
Proof.
  exists (run_globals (allocated w)), (run_world w),
         (run_diagram (run_globals (allocated w))).
  split; [apply script_runs|]. split; [apply run_image|].
  split; [|reflexivity].
  cbn [body run_diagram]; rewrite run_nodes.
  apply (bool_decide_unpack _). vm_compute. exact I.
Qed.

(** ** Leaving the block of a diagram *)


